(** * A shallow embedding of the last-mile delivery dashboard ([app.py])

    The script loads a CSV of delivery records, normalises it, derives an
    age bucket and a lateness flag, filters the records with five
    multiselect widgets and shows KPIs and grouped means.

    Numbers are modelled as exact rationals [Q] (the script uses float64,
    whose sums round and so can depend on the order of the rows); NaN / missing cells are [None]. The
    pandas of the model is pandas 2. The sample standard deviation is kept
    symbolically: the threshold [mean + std] is the pair (mean, variance)
    and [x > mean + sqrt variance] is decided exactly without a square root. *)

From Stdlib Require Import String Ascii List Bool Arith Lia ZArith.
From Stdlib Require Import QArith Qround Lqa Sorted Permutation.
Import ListNotations.
Open Scope string_scope.

(** ** Outcome of a run: [st.stop()] after an [st.error] message, or a value *)

Inductive stop_reason :=
| UnresolvedRequiredField   (* line 73: no Delivery_Time column *)
| EmptyAfterCleaning.       (* line 116: zero rows after cleaning *)

Inductive result (A : Type) :=
| Ok (a : A)
| Error (e : stop_reason).
Arguments Ok {A} a.
Arguments Error {A} e.

(** ** Python string helpers

    A Python [str] is represented by its UTF-8 encoding, one [ascii] per
    byte (pandas decodes the file as UTF-8). *)

(** [str.isspace] on the one-byte characters: \t \n \v \f \r, \x1c-\x1f
    and space. *)
Definition is_space (c : ascii) : bool :=
  let n := nat_of_ascii c in
  Nat.eqb n 32 || (Nat.leb 9 n && Nat.leb n 13) || (Nat.leb 28 n && Nat.leb n 31).

(** The two-byte whitespace characters U+0085 and U+00A0 (C2 85, C2 A0). *)
Definition is_space2 (c1 c2 : ascii) : bool :=
  Nat.eqb (nat_of_ascii c1) 194 &&
  (Nat.eqb (nat_of_ascii c2) 133 || Nat.eqb (nat_of_ascii c2) 160).

(** The three-byte whitespace characters: U+1680 (E1 9A 80), U+2000-U+200A
    (E2 80 80-8A), U+2028, U+2029, U+202F (E2 80 A8, A9, AF), U+205F
    (E2 81 9F) and U+3000 (E3 80 80). *)
Definition is_space3 (c1 c2 c3 : ascii) : bool :=
  let a := nat_of_ascii c1 in
  let b := nat_of_ascii c2 in
  let c := nat_of_ascii c3 in
  (Nat.eqb a 225 && Nat.eqb b 154 && Nat.eqb c 128) ||
  (Nat.eqb a 226 && Nat.eqb b 128 &&
     ((Nat.leb 128 c && Nat.leb c 138) || Nat.eqb c 168 || Nat.eqb c 169 ||
      Nat.eqb c 175)) ||
  (Nat.eqb a 226 && Nat.eqb b 129 && Nat.eqb c 159) ||
  (Nat.eqb a 227 && Nat.eqb b 128 && Nat.eqb c 128).

Section StripFront.
Variable sp1 : ascii -> bool.
Variable sp2 : ascii -> ascii -> bool.
Variable sp3 : ascii -> ascii -> ascii -> bool.

(** Drop leading characters recognised by [sp1], [sp2] or [sp3] (one, two
    or three bytes). *)
Fixpoint strip_front (l : list ascii) : list ascii :=
  match l with
  | [] => []
  | c1 :: l1 =>
      if sp1 c1 then strip_front l1
      else match l1 with
           | [] => l
           | c2 :: l2 =>
               if sp2 c1 c2 then strip_front l2
               else match l2 with
                    | [] => l
                    | c3 :: l3 => if sp3 c1 c2 c3 then strip_front l3 else l
                    end
           end
  end.

End StripFront.

(** [str.lstrip()] *)
Definition lstrip_l (l : list ascii) : list ascii :=
  strip_front is_space is_space2 is_space3 l.

(** [str.rstrip()]: the same on the reversed bytes. In valid UTF-8 a
    suffix that encodes a whitespace character is the last character. *)
Definition rstrip_l (l : list ascii) : list ascii :=
  rev (strip_front is_space (fun a b => is_space2 b a) (fun a b c => is_space3 c b a)
         (rev l)).

(** [str.strip()] *)
Definition strip (s : string) : string :=
  string_of_list_ascii (rstrip_l (lstrip_l (list_ascii_of_string s))).

Definition ascii_lower (c : ascii) : ascii :=
  let n := nat_of_ascii c in
  if Nat.leb 65 n && Nat.leb n 90 then ascii_of_nat (n + 32) else c.

(** KELVIN SIGN U+212A (E2 84 AA), whose lowercase is "k". *)
Definition is_kelvin (c1 c2 c3 : ascii) : bool :=
  Nat.eqb (nat_of_ascii c1) 226 && Nat.eqb (nat_of_ascii c2) 132 &&
  Nat.eqb (nat_of_ascii c3) 170.

Fixpoint lower_l (l : list ascii) : list ascii :=
  match l with
  | [] => []
  | c1 :: l1 =>
      match l1 with
      | c2 :: c3 :: l3 =>
          if is_kelvin c1 c2 c3 then "k"%char :: lower_l l3
          else ascii_lower c1 :: lower_l l1
      | _ => ascii_lower c1 :: lower_l l1
      end
  end.

(** [str.lower()], as far as the script's only use of it (comparison
    with the ASCII variant names, line 57) can tell: the characters whose
    lowercase is ASCII are A-Z and the KELVIN SIGN; every other non-ASCII
    character lowers to a non-ASCII one and is kept as it is. *)
Definition lower (s : string) : string :=
  string_of_list_ascii (lower_l (list_ascii_of_string s)).

Definition str_in (s : string) (l : list string) : bool :=
  existsb (String.eqb s) l.

(** ** The raw table and [pd.read_csv(DATA_PATH, dtype=str)] (line 20)

    A row is the list of its (unquoted) fields; a field absent from a
    short row reads as NaN. A header field is read as its own column name;
    [df[name]] is the first column of that name. *)

Record raw_table := { header : list string; rows : list (list string) }.

(** pandas' default [na_values]: these field texts read as NaN. *)
Definition na_values : list string :=
  [""; "#N/A"; "#N/A N/A"; "#NA"; "-1.#IND"; "-1.#QNAN"; "-NaN"; "-nan";
   "1.#IND"; "1.#QNAN"; "<NA>"; "N/A"; "NA"; "NULL"; "NaN"; "None";
   "n/a"; "nan"; "null"].

Definition read_cell (f : option string) : option string :=
  match f with
  | None => None
  | Some s => if str_in s na_values then None else Some s
  end.

(** ** Lines 24-31: strip headers, strip values, blank tokens become NaN *)

(** [astype(str)] renders NaN as "nan". *)
Definition py_str (c : option string) : string :=
  match c with None => "nan" | Some s => s end.

(** [df[c].astype(str).str.strip().replace({"": nan, "nan": nan, "None": nan})] *)
Definition clean_cell (c : option string) : option string :=
  let s := strip (py_str c) in
  if str_in s [""; "nan"; "None"] then None else Some s.

Definition df_header (t : raw_table) : list string := map strip (header t).

Fixpoint index_of (x : string) (l : list string) : option nat :=
  match l with
  | [] => None
  | y :: l' => if String.eqb x y then Some 0%nat
               else option_map S (index_of x l')
  end.

(** [df[name]] at one raw row. *)
Definition df_cell (hdrs : list string) (row : list string) (name : string)
  : option string :=
  match index_of name hdrs with
  | Some i => clean_cell (read_cell (nth_error row i))
  | None => None
  end.


(** ** Lines 35-65: mapping name variants to the canonical columns *)

Definition dt_variants : list string :=
  ["Delivery_Time"; "Delivery Time"; "delivery_time"; "delivery time";
   "TimeTaken"; "Time Taken"].

Definition variants : list (string * list string) :=
  [("Delivery_Time", dt_variants);
   ("Weather", ["Weather"; "weather"; "WEATHER"]);
   ("Traffic", ["Traffic"; "traffic"; "Traffic Level"; "Traffic_Level"]);
   ("Vehicle", ["Vehicle"; "vehicle"; "Vehicle Type"; "Vehicle_Type"]);
   ("Agent_Age", ["Agent_Age"; "Agent Age"; "Age"; "agent_age"]);
   ("Agent_Rating", ["Agent_Rating"; "Agent Rating"; "Rating"; "agent_rating"]);
   ("Area", ["Area"; "area"; "Delivery Area"; "Location"]);
   ("Category", ["Category"; "category"; "Product Category"])].

(** The inner loop for one target. [available_cols] is a Python set; the
    list gives its iteration order, which only matters when two headers
    match a variant case-insensitively. *)
Fixpoint find_variant (variant_list : list string) (available_cols : list string)
  : option string :=
  match variant_list with
  | [] => None
  | v :: vs =>
      if str_in v available_cols then Some v
      else match find (fun ac => String.eqb (lower ac) (lower v)) available_cols with
           | Some ac => Some ac
           | None => find_variant vs available_cols
           end
  end.

Definition col_map (available_cols : list string) : list (string * option string) :=
  map (fun '(target, vl) => (target, find_variant vl available_cols)) variants.

Fixpoint lookup (k : string) (m : list (string * option string)) : option string :=
  match m with
  | [] => None
  | (k', v) :: m' => if String.eqb k k' then v else lookup k m'
  end.

(** ** Records of the working table (lines 78-94) *)

(** A row of [work] before [dropna]: the eight standard columns. *)
Record work_row := {
  w_Delivery_Time : option Q;
  w_Weather : option string;
  w_Traffic : option string;
  w_Vehicle : option string;
  w_Agent_Age : option Q;
  w_Agent_Rating : option Q;
  w_Area : option string;
  w_Category : option string }.

(** A row of [work] after [dropna(subset=["Delivery_Time"])]. *)
Record record := {
  Delivery_Time : Q;
  Weather : option string;
  Traffic : option string;
  Vehicle : option string;
  Agent_Age : option Q;
  Agent_Rating : option Q;
  Area : option string;
  Category : option string }.

(** [work.dropna(subset=["Delivery_Time"])] *)
Fixpoint dropna_dt (w : list work_row) : list record :=
  match w with
  | [] => []
  | r :: w' =>
      match w_Delivery_Time r with
      | Some dt =>
          {| Delivery_Time := dt; Weather := w_Weather r; Traffic := w_Traffic r;
             Vehicle := w_Vehicle r; Agent_Age := w_Agent_Age r;
             Agent_Rating := w_Agent_Rating r; Area := w_Area r;
             Category := w_Category r |} :: dropna_dt w'
      | None => dropna_dt w'
      end
  end.

(** ** Statistics over [Q] *)

Definition Qltb (x y : Q) : bool := negb (Qle_bool y x).

Definition sumQ (xs : list Q) : Q := fold_right Qplus 0 xs.

Definition lenQ {A} (xs : list A) : Q := inject_Z (Z.of_nat (length xs)).

(** [Series.mean()] (used on non-empty series only). *)
Definition meanQ (xs : list Q) : Q := sumQ xs / lenQ xs.

(** The threshold [mean + std] as the pair (mean, sample variance): the
    real number [t_mean + sqrt t_var]. *)
Record thr := { t_mean : Q; t_var : Q }.

(** [mean_dt + std_dt] (lines 124-126): NaN ([None]) for fewer than two
    values, since [std] has [ddof=1] (and [mean] of nothing is NaN). *)
Definition threshold (xs : list Q) : option thr :=
  match xs with
  | [] | [_] => None
  | _ =>
      let m := meanQ xs in
      Some {| t_mean := m;
              t_var := sumQ (map (fun x => (x - m) * (x - m)) xs)
                       / inject_Z (Z.of_nat (length xs - 1)) |}
  end.

(** [x > t_mean + sqrt t_var], decided exactly: it holds iff [x - t_mean]
    is positive and its square exceeds [t_var]. *)
Definition exceeds (x : Q) (t : thr) : bool :=
  Qltb (t_mean t) x && Qltb (t_var t) ((x - t_mean t) * (x - t_mean t)).

(** [Delivery_Time > threshold]: a comparison with NaN is false. *)
Definition is_late (t : option thr) (x : Q) : bool :=
  match t with Some t => exceeds x t | None => false end.

(** ** Line 123: [pd.cut(..., include_lowest=True)] and the age bucket *)

(** [pd.cut] of one value: [searchsorted(side="left")] on the sorted bins
    counts the bins below [x]; [include_lowest] puts [bins[0]] into the first
    interval; an index of 0 or [len(bins)] is NaN ([None]). *)
Definition cut (bins : list Q) (labels : list string) (include_lowest : bool)
  (x : Q) : option string :=
  let ids := length (filter (fun b => Qltb b x) bins) in
  let ids := match bins with
             | b0 :: _ => if include_lowest && Qeq_bool x b0 then 1%nat else ids
             | [] => ids
             end in
  if Nat.eqb ids 0 || Nat.eqb ids (length bins) then None
  else nth_error labels (ids - 1).

Definition age_bins : list Q := [-1; 24; 40; 200].
Definition age_labels : list string := ["<25"; "25-40"; "40+"].

(** [pd.cut(work["Agent_Age"].fillna(-1), bins=[-1,24,40,200], labels=...,
    include_lowest=True).astype(str).replace("nan","Unknown")] *)
Definition age_group (a : option Q) : string :=
  let x := match a with Some x => x | None => -1 end in
  match cut age_bins age_labels true x with
  | Some l => l
  | None => "Unknown"
  end.

(** ** Lines 116-127: the derived columns *)

Record derived := { base : record; Age_Group : string; Late : bool }.

Definition derive (work : list record) : result (list derived) :=
  match work with
  | [] => Error EmptyAfterCleaning
  | _ =>
      let t := threshold (map Delivery_Time work) in
      Ok (map (fun r => {| base := r; Age_Group := age_group (Agent_Age r);
                            Late := is_late t (Delivery_Time r) |}) work)
  end.

(** ** Lines 133-155: the multiselect filters *)

Definition opt_list {A} (o : option A) : list A :=
  match o with Some x => [x] | None => [] end.

Fixpoint insert_by {A} (le : A -> A -> bool) (x : A) (l : list A) : list A :=
  match l with
  | [] => [x]
  | y :: l' => if le x y then x :: l else y :: insert_by le x l'
  end.

(** A stable insertion sort. *)
Definition isort {A} (le : A -> A -> bool) (l : list A) : list A :=
  fold_right (insert_by le) [] l.

(** [sorted(work[col].dropna().unique().tolist())]: the options (and the
    default selection) of [safe_multiselect]; also the sorted group keys of
    [groupby]. *)
Definition distinct_values (field : record -> option string) (rs : list derived)
  : list string :=
  isort String.leb (nodup string_dec (flat_map (fun d => opt_list (field (base d))) rs)).

Record selection := {
  weather_sel : list string;
  traffic_sel : list string;
  vehicle_sel : list string;
  area_sel : list string;
  category_sel : list string }.

(** [Series.isin(sel)]: NaN is in no list of strings. *)
Definition isin (v : option string) (sel : list string) : bool :=
  match v with Some s => str_in s sel | None => false end.

(** [if sel: filtered = filtered[filtered[col].isin(sel)]] *)
Definition filter_on (field : record -> option string) (sel : list string)
  (rs : list derived) : list derived :=
  match sel with
  | [] => rs
  | _ => filter (fun d => isin (field (base d)) sel) rs
  end.

(** Lines 145-155. *)
Definition apply_filter (s : selection) (work : list derived) : list derived :=
  let filtered := work in
  let filtered := filter_on Weather (weather_sel s) filtered in
  let filtered := filter_on Traffic (traffic_sel s) filtered in
  let filtered := filter_on Vehicle (vehicle_sel s) filtered in
  let filtered := filter_on Area (area_sel s) filtered in
  filter_on Category (category_sel s) filtered.

(** The default of every widget: all its options. *)
Definition default_selection (work : list derived) : selection :=
  {| weather_sel := distinct_values Weather work;
     traffic_sel := distinct_values Traffic work;
     vehicle_sel := distinct_values Vehicle work;
     area_sel := distinct_values Area work;
     category_sel := distinct_values Category work |}.

(** ** Lines 168-173: the KPIs *)

(** Python's [round(x, 2)], half to even, on exact rationals. *)
Definition round_half_even (y : Q) : Z :=
  let f := Qfloor y in
  let r := y - inject_Z f in
  if Qltb r (1 # 2) then f
  else if Qltb (1 # 2) r then (f + 1)%Z
  else if Z.even f then f else (f + 1)%Z.

Definition round2 (x : Q) : Q := inject_Z (round_half_even (x * 100)) / 100.

Definition b2q (b : bool) : Q := if b then 1 else 0.

(** [avg_delivery_time = None] is the "—" shown for an empty selection. *)
Record kpi := {
  avg_delivery_time : option Q;
  total_deliveries : nat;
  late_pct : Q }.

Definition kpis (filtered : list derived) : kpi :=
  {| avg_delivery_time :=
       match filtered with
       | [] => None
       | _ => Some (round2 (meanQ (map (fun d => Delivery_Time (base d)) filtered)))
       end;
     total_deliveries := length filtered;
     late_pct :=
       if Nat.ltb 0 (length filtered)
       then round2 (meanQ (map (fun d => b2q (Late d)) filtered) * 100)
       else 0 |}.

(** ** Lines 192-214: grouped means *)

Definition key_is (v : option string) (k : string) : bool :=
  match v with Some s => String.eqb s k | None => false end.

(** [filtered.groupby(col, as_index=False)["Delivery_Time"].mean()]: one row
    per sorted non-NaN key (NaN keys are dropped by [groupby]). *)
Definition groupby_mean (field : record -> option string) (rs : list derived)
  : list (string * Q) :=
  map (fun k => (k, meanQ (map (fun d => Delivery_Time (base d))
                              (filter (fun d => key_is (field (base d)) k) rs))))
      (distinct_values field rs).

(** [.sort_values("Delivery_Time", ascending=...)], as a stable sort. *)
Definition sort_values (ascending : bool) (g : list (string * Q)) : list (string * Q) :=
  isort (fun a b => if ascending then Qle_bool (snd a) (snd b)
                    else Qle_bool (snd b) (snd a)) g.

Definition weather_grp (f : list derived) := sort_values false (groupby_mean Weather f).
Definition traffic_grp (f : list derived) := sort_values false (groupby_mean Traffic f).
Definition vehicle_grp (f : list derived) := sort_values true (groupby_mean Vehicle f).
Definition area_grp (f : list derived) := sort_values false (groupby_mean Area f).

Record view := {
  v_filtered : list derived;
  v_kpis : kpi;
  v_weather_grp : list (string * Q);
  v_traffic_grp : list (string * Q);
  v_vehicle_grp : list (string * Q);
  v_area_grp : list (string * Q) }.

(** ** The whole script, for a numeric parser [to_numeric] *)

Section Pipeline.

(** [pd.to_numeric(..., errors="coerce")] on one non-NaN string: [None]
    when it does not parse. *)
Variable parse_number : string -> option Q.

Definition to_numeric (c : option string) : option Q :=
  match c with Some s => parse_number s | None => None end.

(** [work[target] = df[src]] if [src] else NaN (lines 79-84), at one row. *)
Definition work_col (hdrs : list string) (cm : list (string * option string))
  (row : list string) (target : string) : option string :=
  match lookup target cm with
  | Some src => df_cell hdrs row src
  | None => None
  end.

(** One raw row as a row of [work] (lines 78-89). *)
Definition work_of_row (hdrs : list string) (cm : list (string * option string))
  (row : list string) : work_row :=
  let col := work_col hdrs cm row in
  {| w_Delivery_Time := to_numeric (col "Delivery_Time");
     w_Weather := col "Weather"; w_Traffic := col "Traffic";
     w_Vehicle := col "Vehicle"; w_Agent_Age := to_numeric (col "Agent_Age");
     w_Agent_Rating := to_numeric (col "Agent_Rating");
     w_Area := col "Area"; w_Category := col "Category" |}.

(** Lines 20-94. *)
Definition ingest (t : raw_table) : result (list record) :=
  let hdrs := df_header t in
  let cm := col_map hdrs in
  match lookup "Delivery_Time" cm with
  | None => Error UnresolvedRequiredField
  | Some _ => Ok (dropna_dt (map (work_of_row hdrs cm) (rows t)))
  end.

(** Lines 20-127. *)
Definition load (t : raw_table) : result (list derived) :=
  match ingest t with
  | Error e => Error e
  | Ok work => derive work
  end.

(** The script for one state of the widgets. *)
Definition dashboard (t : raw_table) (s : selection) : result view :=
  match load t with
  | Error e => Error e
  | Ok work =>
      let filtered := apply_filter s work in
      Ok {| v_filtered := filtered; v_kpis := kpis filtered;
            v_weather_grp := weather_grp filtered;
            v_traffic_grp := traffic_grp filtered;
            v_vehicle_grp := vehicle_grp filtered;
            v_area_grp := area_grp filtered |}
  end.

(** [before_rows] and [after_rows] of lines 92-94, once the Delivery_Time
    column is resolved. *)
Definition row_counts (t : raw_table) : result (nat * nat) :=
  let hdrs := df_header t in
  let cm := col_map hdrs in
  match lookup "Delivery_Time" cm with
  | None => Error UnresolvedRequiredField
  | Some _ =>
      let work := map (work_of_row hdrs cm) (rows t) in
      let before_rows := length work in
      let work := dropna_dt work in
      let after_rows := length work in
      Ok (before_rows, after_rows)
  end.

End Pipeline.

(** A [to_numeric] for plain decimal notation ([-]digits[.digits]); the
    exponent and infinity forms pandas also accepts are not covered. *)
Definition digit (c : ascii) : option Z :=
  let n := nat_of_ascii c in
  if Nat.leb 48 n && Nat.leb n 57 then Some (Z.of_nat (n - 48)) else None.

Fixpoint parse_digits (l : list ascii) (acc : Z) (n : nat) : Z * nat * list ascii :=
  match l with
  | c :: l' => match digit c with
               | Some d => parse_digits l' (acc * 10 + d)%Z (S n)
               | None => (acc, n, l)
               end
  | [] => (acc, n, [])
  end.

Definition parse_unsigned (l : list ascii) : option Q :=
  let '(i, ni, r) := parse_digits l 0%Z 0 in
  match r with
  | [] => if Nat.eqb ni 0 then None else Some (inject_Z i)
  | c :: r' =>
      if Ascii.eqb c "."%char then
        let '(f, nf, r'') := parse_digits r' i 0 in
        match r'' with
        | [] => if Nat.eqb (ni + nf) 0 then None
                else Some (inject_Z f / inject_Z (10 ^ Z.of_nat nf))
        | _ => None
        end
      else None
  end.

Definition decimal_number (s : string) : option Q :=
  match list_ascii_of_string s with
  | c :: l => if Ascii.eqb c "-"%char then option_map Qopp (parse_unsigned l)
              else if Ascii.eqb c "+"%char then parse_unsigned l
              else parse_unsigned (c :: l)
  | [] => None
  end.

(** ** Vocabulary of the properties *)

(** Whether one [if sel: ... isin(sel)] step keeps a value: an empty
    selection skips the step. *)
Definition accepts (sel : list string) (v : option string) : bool :=
  match sel with [] => true | _ => isin v sel end.

(** What a grouped table [g] over [field] says about its input [ds]: one
    row per distinct non-NaN key, the mean of the group's delivery times,
    rows ordered by [le] on the means. *)
Definition group_summary_ok (field : record -> option string)
  (le : Q -> Q -> Prop) (ds : list derived) (g : list (string * Q)) : Prop :=
  NoDup (map fst g) /\
  (forall k, In k (map fst g) <-> exists d, In d ds /\ field (base d) = Some k) /\
  (forall k m, In (k, m) g ->
     m = meanQ (map (fun d => Delivery_Time (base d))
                    (filter (fun d => key_is (field (base d)) k) ds))) /\
  Sorted (fun a b => le (snd a) (snd b)) g.

(** [sel] lets the value [v] through: the selection is empty, or [v] is
    present and selected. *)
Definition allows (sel : list string) (v : option string) : Prop :=
  sel = [] \/ exists x, v = Some x /\ In x sel.




(** ** Sample data *)

Definition mk_rec (dt : Q) (w v : option string) (age : option Q) : record :=
  {| Delivery_Time := dt; Weather := w; Traffic := Some "Low"; Vehicle := v;
     Agent_Age := age; Agent_Rating := None; Area := Some "Urban";
     Category := Some "Food" |}.

(** Delivery times [10,10,10,10,100]: mean 28, sample variance 1620, so
    the threshold is about 68.2 and only the 100 is late. *)
Definition sample_work : list record :=
  [mk_rec 10 (Some "Sunny") (Some "bike") (Some 22);
   mk_rec 10 (Some "Rainy") (Some "car") (Some 30);
   mk_rec 10 (Some "Sunny") (Some "car") None;
   mk_rec 10 (Some "Rainy") (Some "bike") (Some 41);
   mk_rec 100 (Some "Sunny") (Some "van") (Some 35)].

Definition sample_derived : list derived :=
  match derive sample_work with Ok ds => ds | Error _ => [] end.

Definition late_record : derived :=
  {| base := mk_rec 100 (Some "Sunny") (Some "van") (Some 35);
     Age_Group := "25-40"; Late := true |}.

(** Sunny deliveries by bike or van: the two rows with times 10 and 100. *)
Definition sunny_bike_van : selection :=
  {| weather_sel := ["Sunny"]; traffic_sel := []; vehicle_sel := ["bike"; "van"];
     area_sel := []; category_sel := [] |}.

(** Nothing selected for the weather, everything for the other fields. *)
Definition no_weather : selection :=
  {| weather_sel := []; traffic_sel := ["Low"]; vehicle_sel := ["bike"; "car"; "van"];
     area_sel := ["Urban"]; category_sel := ["Food"] |}.

(** Two deliveries, the second without a weather value. *)
Definition weather_gap : list derived :=
  match derive [mk_rec 10 (Some "Sunny") (Some "bike") (Some 22);
                mk_rec 20 None (Some "bike") (Some 30)] with
  | Ok ds => ds | Error _ => [] end.

(** A file whose only time column is called "Time". *)
Definition no_time_table : raw_table :=
  {| header := ["Time"; " Weather "]; rows := [["10"; "Sunny"]; ["12"; "Rainy"]] |}.

(** Two identical rows and one whose time does not parse. *)
Definition dup_table : raw_table :=
  {| header := ["Delivery_Time"; "Weather"; "Vehicle"];
     rows := [["10"; " sunny"; "bike"]; ["10"; " sunny"; "bike"];
              ["abc"; "Rainy"; "car"]; ["12"; ""; "none"]] |}.

Definition dup_work : list record :=
  match ingest decimal_number dup_table with Ok w => w | Error _ => [] end.

(** Two deliveries whose vehicle equals their weather: "A" at 10, "B" at 20. *)
Definition mirror_rows : list derived :=
  match derive [mk_rec 10 (Some "A") (Some "A") None;
                mk_rec 20 (Some "B") (Some "B") None] with
  | Ok ds => ds | Error _ => [] end.



(** * Properties *)

(** ** Filtering *)

Lemma filter_on_eq field sel rs :
  filter_on field sel rs = filter (fun d => accepts sel (field (base d))) rs.
Proof.
  destruct sel as [|x sel]; simpl.
  - symmetry. apply filter_true.
  - reflexivity.
Qed.

Lemma filter_filter_andb {A} (f g : A -> bool) (l : list A) :
  filter g (filter f l) = filter (fun x => f x && g x) l.
Proof.
  induction l as [|x l IH]; simpl; [reflexivity|].
  destruct (f x); simpl; [destruct (g x)|]; rewrite ?IH; reflexivity.
Qed.

Lemma apply_filter_eq s rs :
  apply_filter s rs =
  filter (fun d => accepts (weather_sel s) (Weather (base d))
                   && accepts (traffic_sel s) (Traffic (base d))
                   && accepts (vehicle_sel s) (Vehicle (base d))
                   && accepts (area_sel s) (Area (base d))
                   && accepts (category_sel s) (Category (base d))) rs.
Proof.
  unfold apply_filter. rewrite !filter_on_eq, !filter_filter_andb.
  apply filter_ext. intro d. rewrite !andb_assoc. reflexivity.
Qed.

Lemma apply_filter_incl s rs d : In d (apply_filter s rs) -> In d rs.
Proof. rewrite apply_filter_eq, filter_In. tauto. Qed.

(** ** Derivation *)

Lemma derive_cons r work :
  derive (r :: work) =
  Ok (map (fun x => {| base := x; Age_Group := age_group (Agent_Age x);
                        Late := is_late (threshold (map Delivery_Time (r :: work)))
                                        (Delivery_Time x) |}) (r :: work)).
Proof. reflexivity. Qed.

Lemma derive_ok work ds :
  derive work = Ok ds ->
  work <> [] /\
  ds = map (fun x => {| base := x; Age_Group := age_group (Agent_Age x);
                         Late := is_late (threshold (map Delivery_Time work))
                                         (Delivery_Time x) |}) work.
Proof.
  destruct work as [|r work]; [discriminate|].
  intro H. injection H as H. split; [discriminate|]. rewrite <- H. reflexivity.
Qed.

Lemma threshold_none_iff xs : threshold xs = None <-> (length xs <= 1)%nat.
Proof.
  destruct xs as [|x [|y xs]]; simpl; split; intro H; try reflexivity;
    try discriminate; lia.
Qed.

Lemma accepts_allows sel v : accepts sel v = true <-> allows sel v.
Proof.
  unfold accepts, allows, isin, str_in. destruct sel as [|y sel].
  - split; auto.
  - destruct v as [x|]; split.
    + intros H. right. apply existsb_exists in H as [z [Hz E]].
      apply String.eqb_eq in E. subst z. eauto.
    + intros [H|[z [E Hz]]]; [discriminate|]. injection E as ->.
      apply existsb_exists. exists z. split; [exact Hz|apply String.eqb_refl].
    + discriminate.
    + intros [H|[z [E _]]]; discriminate.
Qed.

Lemma insert_by_perm {A} (le : A -> A -> bool) x l :
  Permutation (insert_by le x l) (x :: l).
Proof.
  induction l as [|y l IH]; simpl; [reflexivity|].
  destruct (le x y); [reflexivity|].
  rewrite IH. apply perm_swap.
Qed.

Lemma isort_perm {A} (le : A -> A -> bool) l : Permutation (isort le l) l.
Proof.
  induction l as [|x l IH]; simpl; [reflexivity|].
  rewrite insert_by_perm. now apply perm_skip.
Qed.

Lemma distinct_values_In field rs k :
  In k (distinct_values field rs) <-> exists d, In d rs /\ field (base d) = Some k.
Proof.
  unfold distinct_values.
  split.
  - intro H. apply (Permutation_in _ (isort_perm _ _)) in H.
    apply nodup_In, in_flat_map in H as [d [Hd Hk]].
    exists d. split; [exact Hd|].
    destruct (field (base d)); simpl in Hk; [|contradiction].
    destruct Hk as [->|[]]. reflexivity.
  - intros [d [Hd Hk]].
    apply (Permutation_in _ (Permutation_sym (isort_perm _ _))).
    apply nodup_In, in_flat_map. exists d. rewrite Hk. simpl. auto.
Qed.

Lemma distinct_values_NoDup field rs : NoDup (distinct_values field rs).
Proof.
  unfold distinct_values.
  eapply Permutation_NoDup; [symmetry; apply isort_perm|apply NoDup_nodup].
Qed.

(** ** C1 *)

(** C1: the lateness flag of a record that survives any filter is its
    delivery time compared with the threshold [mean + std] of the whole
    cleaned dataset [work], computed once in [derive]; filtering neither
    recomputes the threshold nor changes any flag. *)
Theorem late_flag_from_whole_dataset (work : list record) (ds : list derived)
  (s : selection) (d : derived) :
  derive work = Ok ds ->
  In d (apply_filter s ds) ->
  In (base d) work /\
  Late d = is_late (threshold (map Delivery_Time work)) (Delivery_Time (base d)).
Proof.
  intros Hder Hin. apply apply_filter_incl in Hin.
  apply derive_ok in Hder as [_ ->].
  apply in_map_iff in Hin as [x [<- Hx]]. simpl. auto.
Qed.

(** The time-100 record stays late once the view holds only the times 10
    and 100, although a threshold computed from the view would not flag it. *)
Lemma late_flag_from_whole_dataset_witness :
  (In (base late_record) sample_work /\
   Late late_record = is_late (threshold (map Delivery_Time sample_work)) 100) /\
  Late late_record = true /\
  map (fun d => Delivery_Time (base d)) (apply_filter sunny_bike_van sample_derived)
    = [10; 100] /\
  is_late (threshold [10; 100]) 100 = false.
Proof.
  split; [|vm_compute; auto].
  apply (late_flag_from_whole_dataset sample_work sample_derived sunny_bike_van
           late_record).
  - reflexivity.
  - vm_compute. auto.
Defined.

(** ** C3 *)

(** C3 (as amended): an empty selection for a field imposes no constraint
    from that field, uniformly over the five fields: [apply_filter] keeps,
    in order, exactly the records that every field with a non-empty
    selection accepts, and with five empty selections it is the identity. *)
Theorem apply_filter_empty_selection_no_constraint (s : selection) (rs : list derived) :
  apply_filter s rs =
    filter (fun d => accepts (weather_sel s) (Weather (base d))
                     && accepts (traffic_sel s) (Traffic (base d))
                     && accepts (vehicle_sel s) (Vehicle (base d))
                     && accepts (area_sel s) (Area (base d))
                     && accepts (category_sel s) (Category (base d))) rs /\
  (weather_sel s = [] -> traffic_sel s = [] -> vehicle_sel s = [] ->
   area_sel s = [] -> category_sel s = [] -> apply_filter s rs = rs).
Proof.
  split; [apply apply_filter_eq|].
  intros Hw Ht Hv Ha Hc. rewrite apply_filter_eq, Hw, Ht, Hv, Ha, Hc.
  apply filter_true.
Qed.

(** C3 fails: with nothing selected for the weather, the filter keeps all
    five sample records instead of none. *)
Lemma empty_selection_keeps_records :
  weather_sel no_weather = [] /\
  apply_filter no_weather sample_derived = sample_derived /\
  length sample_derived = 5%nat.
Proof. vm_compute. auto. Qed.

(** ** C4 *)

(** C4 (as amended): a record is in the result iff it is in the input and
    every field lets it through (empty selection, or present and selected);
    when no record has a missing categorical value, the default selection
    (all distinct values) returns the input unchanged. *)
Theorem apply_filter_membership (s : selection) (rs : list derived) :
  (forall d, In d (apply_filter s rs) <->
     In d rs /\ allows (weather_sel s) (Weather (base d))
     /\ allows (traffic_sel s) (Traffic (base d))
     /\ allows (vehicle_sel s) (Vehicle (base d))
     /\ allows (area_sel s) (Area (base d))
     /\ allows (category_sel s) (Category (base d))) /\
  ((forall d, In d rs ->
      Weather (base d) <> None /\ Traffic (base d) <> None /\
      Vehicle (base d) <> None /\ Area (base d) <> None /\
      Category (base d) <> None) ->
   apply_filter (default_selection rs) rs = rs).
Proof.
  split.
  - intro d. rewrite apply_filter_eq, filter_In, !andb_true_iff, !accepts_allows.
    tauto.
  - intro Hall. rewrite apply_filter_eq. apply forallb_filter_id.
    apply forallb_forall. intros d Hd.
    assert (Hsel : forall field, field (base d) <> None ->
              accepts (distinct_values field rs) (field (base d)) = true).
    { intros field Hf. apply accepts_allows. right.
      destruct (field (base d)) as [x|] eqn:E; [|congruence].
      exists x. split; [reflexivity|]. apply distinct_values_In. eauto. }
    destruct (Hall d Hd) as (H1 & H2 & H3 & H4 & H5). simpl.
    rewrite !Hsel by assumption. reflexivity.
Qed.

(** C4 fails: with every field's selection the full set of its distinct
    values, a record whose weather is missing is dropped. *)
Lemma default_selection_drops_missing :
  length weather_gap = 2%nat /\
  weather_sel (default_selection weather_gap) = ["Sunny"] /\
  length (apply_filter (default_selection weather_gap) weather_gap) = 1%nat.
Proof. vm_compute. auto. Qed.

(** ** C8 *)

(** C8: the KPIs of an empty view: no average (the "—" sentinel), zero
    deliveries and a late share of 0. *)
Theorem kpis_empty :
  avg_delivery_time (kpis []) = None /\
  total_deliveries (kpis []) = 0%nat /\
  late_pct (kpis []) = 0.
Proof. repeat split. Qed.

(** ** C10 *)

(** C10: [derive] stops only on an empty clean set (and then with
    [EmptyAfterCleaning]); the threshold is undefined exactly for at most
    one record, and an undefined threshold flags no record as late. *)
Theorem derive_fails_only_on_empty (work : list record) :
  (forall e, derive work = Error e <-> work = [] /\ e = EmptyAfterCleaning) /\
  (work <> [] -> exists ds, derive work = Ok ds) /\
  (threshold (map Delivery_Time work) = None <-> (length work <= 1)%nat) /\
  (forall ds d, derive work = Ok ds ->
     threshold (map Delivery_Time work) = None -> In d ds -> Late d = false).
Proof.
  split; [|split; [|split]].
  - intro e. destruct work as [|r work]; simpl.
    + split; [intro H; injection H as <-; auto|intros [_ ->]; reflexivity].
    + split; [discriminate|intros [H _]; discriminate].
  - destruct work as [|r work]; [congruence|]. intros _. eexists. reflexivity.
  - rewrite threshold_none_iff, length_map. reflexivity.
  - intros ds d Hder Hnone Hin. apply derive_ok in Hder as [_ ->].
    apply in_map_iff in Hin as [x [<- _]]. simpl. rewrite Hnone. reflexivity.
Qed.

(** ** C2 *)

Lemma Qltb_iff x y : Qltb x y = true <-> x < y.
Proof.
  unfold Qltb. rewrite negb_true_iff. split.
  - intro H. apply Qnot_le_lt. intro H'. apply Qle_bool_iff in H'. congruence.
  - intro H. destruct (Qle_bool y x) eqn:E; [|reflexivity].
    apply Qle_bool_iff in E. exfalso. apply (Qlt_not_le _ _ H E).
Qed.

Lemma Qltb_false x y : Qltb x y = false -> y <= x.
Proof.
  intro H. destruct (Qlt_le_dec x y) as [Hlt|Hle]; [|exact Hle].
  apply Qltb_iff in Hlt. congruence.
Qed.

Ltac qbool_hyps :=
  repeat match goal with
  | H : Qltb _ _ = true |- _ => apply Qltb_iff in H
  | H : Qltb _ _ = false |- _ => apply Qltb_false in H
  | H : Qeq_bool _ _ = true |- _ => apply Qeq_bool_iff in H
  | H : Qeq_bool _ _ = false |- _ =>
      apply Qeq_bool_neq in H;
      match type of H with
      | ~ (?a == ?b) => destruct (Q_dec a b) as [[?|?]|?]; [..|contradiction]
      end
  end.

(** C2 (as amended): [pd.cut] on [fillna(-1)] of the age with bins
    [-1,24,40,200] and [include_lowest]: a missing age and ages in
    [[-1,24]] give "<25", [(24,40]] gives "25-40", [(40,200]] gives "40+",
    and only ages below -1 or above 200 give "Unknown". *)
Theorem age_group_buckets :
  age_group None = "<25" /\
  forall x : Q,
    (-1 <= x <= 24 -> age_group (Some x) = "<25") /\
    (24 < x <= 40 -> age_group (Some x) = "25-40") /\
    (40 < x <= 200 -> age_group (Some x) = "40+") /\
    (x < -1 \/ 200 < x -> age_group (Some x) = "Unknown").
Proof.
  split; [reflexivity|].
  intro x. unfold age_group, cut, age_bins, age_labels.
  cbn [filter length andb].
  destruct (Qltb (-1) x) eqn:E1, (Qltb 24 x) eqn:E2, (Qltb 40 x) eqn:E3,
    (Qltb 200 x) eqn:E4, (Qeq_bool x (-1)) eqn:E0;
    qbool_hyps; cbn;
    repeat split; intro H; try reflexivity; exfalso; lra.
Qed.

(** C2 fails: a missing age falls into "<25", not "Unknown" (and an age
    above 200 into "Unknown", not "40+"). *)
Lemma missing_age_is_under_25 :
  age_group None = "<25" /\ age_group None <> "Unknown" /\
  age_group (Some 201) = "Unknown".
Proof. vm_compute. split; [reflexivity|split; [discriminate|reflexivity]]. Qed.

(** ** C5 *)

Lemma find_variant_none vl avail :
  (forall ac, In ac avail -> forall v, In v vl -> lower ac <> lower v) ->
  find_variant vl avail = None.
Proof.
  induction vl as [|v vl IH]; intro H; simpl; [reflexivity|].
  destruct (str_in v avail) eqn:E.
  - unfold str_in in E. apply existsb_exists in E as [ac [Hac Heq]].
    apply String.eqb_eq in Heq. subst ac.
    exfalso. apply (H v Hac v (or_introl eq_refl)). reflexivity.
  - destruct (find (fun ac => String.eqb (lower ac) (lower v)) avail) as [ac|] eqn:F.
    + apply find_some in F as [Hac Heq]. apply String.eqb_eq in Heq.
      exfalso. apply (H ac Hac v (or_introl eq_refl) Heq).
    + apply IH. intros ac Hac w Hw. apply H; simpl; auto.
Qed.

Lemma lookup_delivery_time hdrs :
  lookup "Delivery_Time" (col_map hdrs) = find_variant dt_variants hdrs.
Proof. reflexivity. Qed.

(** C5: when no (stripped) header equals a Delivery_Time variant up to
    case, the script stops with [UnresolvedRequiredField] before building
    any record: [load] and the whole dashboard end in that error. *)
Theorem unresolved_delivery_time_stops (parse_number : string -> option Q)
  (t : raw_table) (s : selection) :
  Forall (fun h => Forall (fun v => lower h <> lower v) dt_variants) (df_header t) ->
  load parse_number t = Error UnresolvedRequiredField /\
  dashboard parse_number t s = Error UnresolvedRequiredField.
Proof.
  intro H.
  assert (Hi : ingest parse_number t = Error UnresolvedRequiredField).
  { unfold ingest. rewrite lookup_delivery_time, find_variant_none; [reflexivity|].
    intros ac Hac v Hv.
    rewrite Forall_forall in H. specialize (H ac Hac).
    rewrite Forall_forall in H. exact (H v Hv). }
  unfold dashboard, load. rewrite Hi. split; reflexivity.
Qed.

Lemma unresolved_delivery_time_stops_witness :
  load decimal_number no_time_table = Error UnresolvedRequiredField /\
  dashboard decimal_number no_time_table sunny_bike_van = Error UnresolvedRequiredField.
Proof.
  apply unresolved_delivery_time_stops.
  vm_compute. repeat constructor; discriminate.
Defined.

(** ** Stripping *)

Section StripFrontProps.
Variable sp1 : ascii -> bool.
Variable sp2 : ascii -> ascii -> bool.
Variable sp3 : ascii -> ascii -> ascii -> bool.






End StripFrontProps.






(** ** The cleaned table *)


Lemma dropna_dt_times ws :
  map Delivery_Time (dropna_dt ws) = flat_map (fun w => opt_list (w_Delivery_Time w)) ws.
Proof.
  induction ws as [|w ws IH]; simpl; [reflexivity|].
  destruct (w_Delivery_Time w); simpl; rewrite IH; reflexivity.
Qed.

Lemma flat_map_opt_length {A B} (f : A -> option B) l :
  length (flat_map (fun x => opt_list (f x)) l) =
  length (filter (fun x => match f x with Some _ => true | None => false end) l).
Proof.
  induction l as [|x l IH]; simpl; [reflexivity|].
  destruct (f x); simpl; rewrite IH; reflexivity.
Qed.

(** ** C6 *)





(** ** C7 *)

(** C7 (as amended): ingestion removes no duplicates; the only rows dropped
    are those whose Delivery_Time cell is missing or does not parse: the
    clean set's delivery times are, in order, the parsed times of exactly
    the other raw rows. *)
Theorem ingest_drops_only_unparsed_times (parse_number : string -> option Q)
  (t : raw_table) (work : list record) :
  ingest parse_number t = Ok work ->
  exists src, lookup "Delivery_Time" (col_map (df_header t)) = Some src /\
    map Delivery_Time work =
      flat_map (fun row => opt_list (to_numeric parse_number (df_cell (df_header t) row src)))
               (rows t) /\
    length work =
      length (filter (fun row => match to_numeric parse_number (df_cell (df_header t) row src) with
                                 | Some _ => true | None => false end) (rows t)).
Proof.
  unfold ingest.
  destruct (lookup "Delivery_Time" (col_map (df_header t))) as [src|] eqn:E;
    [|discriminate].
  intro H. injection H as <-. exists src.
  assert (Hm : map Delivery_Time (dropna_dt (map (work_of_row parse_number (df_header t)
                   (col_map (df_header t))) (rows t))) =
               flat_map (fun row => opt_list (to_numeric parse_number
                   (df_cell (df_header t) row src))) (rows t)).
  { rewrite dropna_dt_times. clear -E.
    induction (rows t) as [|row rs IH]; [reflexivity|].
    cbn [map flat_map]. rewrite IH. f_equal.
    cbn [w_Delivery_Time work_of_row]. unfold work_col. rewrite E. reflexivity. }
  split; [reflexivity|split; [exact Hm|]].
  rewrite <- (length_map Delivery_Time), Hm. apply flat_map_opt_length.
Qed.

Lemma ingest_drops_only_unparsed_times_witness :
  exists src, lookup "Delivery_Time" (col_map (df_header dup_table)) = Some src /\
    map Delivery_Time dup_work =
      flat_map (fun row => opt_list (to_numeric decimal_number
                                       (df_cell (df_header dup_table) row src)))
               (rows dup_table) /\
    length dup_work =
      length (filter (fun row => match to_numeric decimal_number
                                         (df_cell (df_header dup_table) row src) with
                                 | Some _ => true | None => false end) (rows dup_table)).
Proof.
  apply ingest_drops_only_unparsed_times. vm_compute. reflexivity.
Defined.

(** C7 fails: two identical raw rows both reach the clean set (only the
    row with time "abc" is dropped). *)
Lemma duplicate_rows_kept :
  match ingest decimal_number dup_table with
  | Ok work => length work = 3%nat /\ nth_error work 0 = nth_error work 1
  | Error _ => False
  end.
Proof. vm_compute. split; reflexivity. Qed.

(** ** Sorting *)

Section InsertionSort.

Context {A : Type} (leb : A -> A -> bool) (R : A -> A -> Prop).
Hypothesis leb_R : forall a b, leb a b = true -> R a b.
Hypothesis leb_total : forall a b, leb a b = false -> R b a.

Lemma insert_by_hd y x l :
  HdRel R y l -> R y x -> HdRel R y (insert_by leb x l).
Proof.
  intros Hhd Hyx. destruct l as [|z l]; simpl; [constructor; exact Hyx|].
  destruct (leb x z); constructor; [exact Hyx|]. inversion Hhd; assumption.
Qed.

Lemma insert_by_sorted x l : Sorted R l -> Sorted R (insert_by leb x l).
Proof.
  induction l as [|y l IH]; intro Hs; simpl; [repeat constructor|].
  destruct (leb x y) eqn:E.
  - constructor; [exact Hs|]. constructor. apply leb_R, E.
  - inversion Hs as [|? ? Hl Hhd]; subst. constructor; [apply IH, Hl|].
    apply insert_by_hd; [exact Hhd|]. apply leb_total, E.
Qed.

Lemma isort_sorted l : Sorted R (isort leb l).
Proof.
  induction l as [|x l IH]; simpl; [constructor|]. apply insert_by_sorted, IH.
Qed.

End InsertionSort.

Lemma Qle_bool_total x y : Qle_bool x y = false -> y <= x.
Proof.
  intro H. destruct (Qlt_le_dec y x) as [Hlt|Hle].
  - apply Qlt_le_weak, Hlt.
  - apply Qle_bool_iff in Hle. congruence.
Qed.

(** ** Grouped means *)

Lemma groupby_mean_keys field ds :
  map fst (groupby_mean field ds) = distinct_values field ds.
Proof. unfold groupby_mean. rewrite map_map. apply map_id. Qed.

Lemma summary_ok field ds (asc : bool) (le : Q -> Q -> Prop) :
  (forall a b, (if asc then Qle_bool a b else Qle_bool b a) = true -> le a b) ->
  (forall a b, (if asc then Qle_bool a b else Qle_bool b a) = false -> le b a) ->
  group_summary_ok field le ds (sort_values asc (groupby_mean field ds)).
Proof.
  intros Hle Htot.
  assert (Hp : Permutation (sort_values asc (groupby_mean field ds))
                           (groupby_mean field ds)) by apply isort_perm.
  split; [|split; [|split]].
  - eapply Permutation_NoDup; [symmetry; apply Permutation_map, Hp|].
    rewrite groupby_mean_keys. apply distinct_values_NoDup.
  - intro k. rewrite <- distinct_values_In, <- groupby_mean_keys.
    split; apply Permutation_in; [|symmetry]; apply Permutation_map, Hp.
  - intros k m Hin. apply (Permutation_in _ Hp) in Hin.
    unfold groupby_mean in Hin. apply in_map_iff in Hin as [k' [E _]].
    injection E as <- <-. reflexivity.
  - apply isort_sorted; intros a b; [apply Hle|apply Htot].
Qed.

(** ** C9 *)

(** C9 (as amended): each grouped table has one row per distinct non-NaN
    key of its field in the view, carrying the mean delivery time of that
    group (no count); Weather, Traffic and Area tables are ordered by
    descending mean, the Vehicle table by ascending mean. *)
Theorem grouped_means_one_row_per_key (ds : list derived) :
  group_summary_ok Weather (fun a b => b <= a) ds (weather_grp ds) /\
  group_summary_ok Traffic (fun a b => b <= a) ds (traffic_grp ds) /\
  group_summary_ok Vehicle Qle ds (vehicle_grp ds) /\
  group_summary_ok Area (fun a b => b <= a) ds (area_grp ds).
Proof.
  assert (Hd : forall field, group_summary_ok field (fun a b => b <= a) ds
                               (sort_values false (groupby_mean field ds))).
  { intro field. apply summary_ok.
    - intros a b H. apply Qle_bool_iff, H.
    - intros a b H. apply Qle_bool_total, H. }
  split; [apply Hd|split; [apply Hd|split; [|apply Hd]]].
  apply summary_ok.
  - intros a b H. apply Qle_bool_iff, H.
  - intros a b H. apply Qle_bool_total, H.
Qed.

(** C9 fails: on deliveries whose vehicle equals their weather, the two
    tables list the same keys in opposite orders, and a delivery with a
    missing weather is in no weather group (two rows, one group). *)
Lemma grouped_means_inconsistent_order :
  Forall (fun d => Weather (base d) = Vehicle (base d)) mirror_rows /\
  map fst (weather_grp mirror_rows) = ["B"; "A"] /\
  map fst (vehicle_grp mirror_rows) = ["A"; "B"] /\
  length weather_gap = 2%nat /\
  weather_grp weather_gap = [("Sunny", 10)].
Proof. vm_compute. repeat constructor. Qed.

(** * Further properties of the script *)

(** ** Column mapping (lines 46-65) *)

(** The resolved column of a target is one of the file's headers, equal up
    to case to one of the target's variants. *)
Theorem find_variant_sound (vl avail : list string) (h : string) :
  find_variant vl avail = Some h ->
  In h avail /\ exists v, In v vl /\ lower h = lower v.
Proof.
  induction vl as [|v vl IH]; simpl; [discriminate|].
  destruct (str_in v avail) eqn:E.
  - intro H. injection H as <-. unfold str_in in E.
    apply existsb_exists in E as [ac [Hac Heq]]. apply String.eqb_eq in Heq.
    subst ac. split; [exact Hac|]. exists v. auto.
  - destruct (find (fun ac => String.eqb (lower ac) (lower v)) avail) as [ac|] eqn:F.
    + intro H. injection H as <-. apply find_some in F as [Hac Heq].
      apply String.eqb_eq in Heq. split; [exact Hac|]. exists v. auto.
    + intro H. destruct (IH H) as [Hh [w [Hw Hl]]]. split; [exact Hh|]. eauto.
Qed.

Lemma find_variant_sound_witness :
  In "delivery time" ["Weather"; "delivery time"] /\
  exists v, In v dt_variants /\ lower "delivery time" = lower v.
Proof. apply (find_variant_sound dt_variants ["Weather"; "delivery time"]). reflexivity. Defined.

(** A target stays unmapped exactly when no header equals any of its
    variants up to case. *)
Theorem find_variant_none_iff (vl avail : list string) :
  find_variant vl avail = None <->
  (forall ac, In ac avail -> forall v, In v vl -> lower ac <> lower v).
Proof.
  split; [|apply find_variant_none].
  induction vl as [|v vl IH]; simpl; intros H ac Hac w Hw; [contradiction|].
  destruct (str_in v avail) eqn:E; [discriminate|].
  destruct (find (fun ac => String.eqb (lower ac) (lower v)) avail) eqn:F;
    [discriminate|].
  destruct Hw as [<-|Hw].
  - intro Heq. pose proof (find_none _ _ F ac Hac) as Hf. simpl in Hf.
    rewrite Heq, String.eqb_refl in Hf. discriminate.
  - exact (IH H ac Hac w Hw).
Qed.

(** ** Where the script stops *)

Lemma work_times (parse_number : string -> option Q) hdrs cm src rs :
  lookup "Delivery_Time" cm = Some src ->
  map Delivery_Time (dropna_dt (map (work_of_row parse_number hdrs cm) rs)) =
  flat_map (fun row => opt_list (to_numeric parse_number (df_cell hdrs row src))) rs.
Proof.
  intro E. rewrite dropna_dt_times.
  induction rs as [|row rs IH]; [reflexivity|].
  cbn [map flat_map]. rewrite IH. f_equal.
  cbn [w_Delivery_Time work_of_row]. unfold work_col. rewrite E. reflexivity.
Qed.





(** ** Row-count diagnostics (lines 92-97) *)

Lemma filter_length_split {A} (f : A -> bool) l :
  (length (filter f l) + length (filter (fun x => negb (f x)) l) = length l)%nat.
Proof.
  induction l as [|x l IH]; simpl; [reflexivity|].
  destruct (f x); simpl; lia.
Qed.

(** The sidebar's "rows before" is the number of data rows of the file, and
    "rows after" falls short of it by exactly the rows whose delivery time
    is missing or does not parse. *)
Theorem row_counts_diagnostics (parse_number : string -> option Q) (t : raw_table)
  (before_rows after_rows : nat) :
  row_counts parse_number t = Ok (before_rows, after_rows) ->
  exists src, lookup "Delivery_Time" (col_map (df_header t)) = Some src /\
    before_rows = length (rows t) /\
    (after_rows <= before_rows)%nat /\
    (before_rows - after_rows =
       length (filter (fun row => match to_numeric parse_number
                                          (df_cell (df_header t) row src) with
                                  | Some _ => false | None => true end) (rows t)))%nat.
Proof.
  unfold row_counts.
  destruct (lookup "Delivery_Time" (col_map (df_header t))) as [src|] eqn:E;
    [|discriminate].
  intro H. injection H as <- <-. exists src. rewrite length_map.
  rewrite <- (length_map Delivery_Time), (work_times _ _ _ src _ E),
    flat_map_opt_length.
  pose proof (filter_length_split
    (fun row => match to_numeric parse_number (df_cell (df_header t) row src) with
                | Some _ => true | None => false end) (rows t)) as Hs.
  rewrite (filter_ext (fun x => negb _)
    (fun row => match to_numeric parse_number (df_cell (df_header t) row src) with
                | Some _ => false | None => true end)) in Hs
    by (intro row; destruct (to_numeric _ _); reflexivity).
  repeat split; lia.
Qed.

Lemma row_counts_diagnostics_witness :
  exists src, lookup "Delivery_Time" (col_map (df_header dup_table)) = Some src /\
    4%nat = length (rows dup_table) /\ (3 <= 4)%nat /\
    (4 - 3 =
       length (filter (fun row => match to_numeric decimal_number
                                          (df_cell (df_header dup_table) row src) with
                                  | Some _ => false | None => true end) (rows dup_table)))%nat.
Proof. apply row_counts_diagnostics. vm_compute. reflexivity. Defined.

(** ** Filtering *)

(** Applying the same widget state twice filters nothing more. *)
Theorem apply_filter_idempotent (s : selection) (rs : list derived) :
  apply_filter s (apply_filter s rs) = apply_filter s rs.
Proof.
  rewrite !apply_filter_eq, filter_filter_andb. apply filter_ext.
  intro d. apply andb_diag.
Qed.

Lemma length_filter_le {A} (f : A -> bool) l : (length (filter f l) <= length l)%nat.
Proof. induction l as [|x l IH]; simpl; [lia|]. destruct (f x); simpl; lia. Qed.

Lemma dropna_dt_length ws : (length (dropna_dt ws) <= length ws)%nat.
Proof.
  induction ws as [|w ws IH]; simpl; [lia|]. destruct (w_Delivery_Time w); simpl; lia.
Qed.

(** The "Total Deliveries" KPI never exceeds the number of data rows of
    the file, whatever the widgets select. *)
Theorem total_deliveries_le_rows (parse_number : string -> option Q)
  (t : raw_table) (s : selection) (v : view) :
  dashboard parse_number t s = Ok v ->
  (total_deliveries (v_kpis v) <= length (rows t))%nat.
Proof.
  unfold dashboard, load.
  destruct (ingest parse_number t) as [work|e] eqn:Ei; [|discriminate].
  destruct (derive work) as [ds|e] eqn:Ed; [|discriminate].
  intro H. injection H as <-. simpl.
  apply derive_ok in Ed as [_ ->].
  unfold ingest in Ei.
  destruct (lookup "Delivery_Time" (col_map (df_header t))); [|discriminate].
  injection Ei as <-.
  rewrite apply_filter_eq.
  eapply Nat.le_trans; [apply length_filter_le|].
  rewrite length_map. eapply Nat.le_trans; [apply dropna_dt_length|].
  rewrite length_map. lia.
Qed.

Lemma total_deliveries_le_rows_witness :
  (total_deliveries
     (v_kpis (match dashboard decimal_number dup_table sunny_bike_van with
              | Ok v => v
              | Error _ => {| v_filtered := []; v_kpis := kpis []; v_weather_grp := [];
                              v_traffic_grp := []; v_vehicle_grp := []; v_area_grp := [] |}
              end)) <= length (rows dup_table))%nat.
Proof. apply (total_deliveries_le_rows decimal_number dup_table sunny_bike_van). vm_compute. reflexivity. Defined.

(** ** The lateness threshold *)

Lemma lenQ_cons {A} (x : A) xs : lenQ (x :: xs) == lenQ xs + 1.
Proof.
  unfold lenQ. cbn [length]. rewrite Nat2Z.inj_succ. unfold Z.succ.
  rewrite inject_Z_plus. reflexivity.
Qed.

Lemma lenQ_nonneg {A} (xs : list A) : 0 <= lenQ xs.
Proof.
  unfold lenQ. change 0 with (inject_Z 0). rewrite <- Zle_Qle. lia.
Qed.

Lemma lenQ_pos {A} (xs : list A) : xs <> [] -> 0 < lenQ xs.
Proof.
  destruct xs as [|x xs]; [congruence|]. intros _.
  unfold lenQ. change 0 with (inject_Z 0). rewrite <- Zlt_Qlt. cbn [length]. lia.
Qed.

Lemma sumQ_lower_bound m xs :
  (forall x, In x xs -> m <= x) -> m * lenQ xs <= sumQ xs.
Proof.
  induction xs as [|x xs IH]; intro H.
  - unfold lenQ, sumQ. simpl. rewrite Qmult_0_r. apply Qle_refl.
  - cbn [sumQ fold_right]. fold (sumQ xs). rewrite lenQ_cons.
    assert (Hx : m <= x) by (apply H; left; reflexivity).
    assert (Hs : m * lenQ xs <= sumQ xs) by (apply IH; intros y Hy; apply H; right; exact Hy).
    setoid_replace (m * (lenQ xs + 1)) with (m * lenQ xs + m) by ring.
    lra.
Qed.

Lemma exists_min xs :
  xs <> [] -> exists m, In m xs /\ forall x, In x xs -> m <= x.
Proof.
  induction xs as [|a xs IH]; [congruence|]. intros _.
  destruct xs as [|b xs].
  - exists a. split; [left; reflexivity|]. intros x [<-|[]]. apply Qle_refl.
  - destruct IH as [m [Hm Hmin]]; [discriminate|].
    destruct (Qlt_le_dec a m) as [Ha|Ha].
    + exists a. split; [left; reflexivity|].
      intros x [<-|Hx]; [apply Qle_refl|]. apply Qlt_le_weak.
      eapply Qlt_le_trans; [exact Ha|apply Hmin, Hx].
    + exists m. split; [right; exact Hm|].
      intros x [<-|Hx]; [exact Ha|apply Hmin, Hx].
Qed.

Lemma exists_le_mean xs : xs <> [] -> exists x, In x xs /\ x <= meanQ xs.
Proof.
  intro Hne. destruct (exists_min xs Hne) as [m [Hm Hmin]].
  exists m. split; [exact Hm|]. unfold meanQ.
  apply Qle_shift_div_l; [apply lenQ_pos, Hne|].
  apply sumQ_lower_bound, Hmin.
Qed.

Lemma threshold_some xs :
  (2 <= length xs)%nat ->
  threshold xs =
    Some {| t_mean := meanQ xs;
            t_var := sumQ (map (fun x => (x - meanQ xs) * (x - meanQ xs)) xs)
                     / inject_Z (Z.of_nat (length xs - 1)) |}.
Proof. destruct xs as [|a [|b xs]]; simpl; intro H; [lia|lia|reflexivity]. Qed.

Lemma is_late_above xs x : is_late (threshold xs) x = true -> meanQ xs < x.
Proof.
  destruct (Nat.le_gt_cases 2 (length xs)) as [H2|H2].
  - rewrite threshold_some by exact H2. unfold is_late, exceeds. simpl.
    intro H. apply andb_true_iff in H as [H _]. apply Qltb_iff, H.
  - assert (Hn : threshold xs = None) by (apply threshold_none_iff; lia).
    rewrite Hn. discriminate.
Qed.

(** A delivery is flagged late only when its time is strictly above the
    mean of the whole dataset, so the script never flags every delivery:
    the earliest one (at most the mean) is always on time. *)
Theorem late_above_mean_some_on_time (work : list record) (ds : list derived) :
  derive work = Ok ds ->
  (forall d, In d ds -> Late d = true ->
     meanQ (map Delivery_Time work) < Delivery_Time (base d)) /\
  exists d, In d ds /\ Late d = false.
Proof.
  intro Hd. apply derive_ok in Hd as [Hne ->]. split.
  - intros d Hin HL. apply in_map_iff in Hin as [r [<- _]].
    apply is_late_above, HL.
  - destruct (exists_le_mean (map Delivery_Time work)) as [x [Hx Hle]].
    { destruct work; [congruence|discriminate]. }
    apply in_map_iff in Hx as [r [<- Hr]].
    eexists. split; [apply in_map, Hr|]. simpl.
    destruct (is_late _ _) eqn:E; [|reflexivity].
    apply is_late_above in E. exfalso. exact (Qlt_not_le _ _ E Hle).
Qed.

Lemma late_above_mean_some_on_time_witness :
  (forall d, In d sample_derived -> Late d = true ->
     meanQ (map Delivery_Time sample_work) < Delivery_Time (base d)) /\
  exists d, In d sample_derived /\ Late d = false.
Proof. apply late_above_mean_some_on_time. vm_compute. reflexivity. Defined.

(** ** The late-delivery percentage *)

Lemma sum_b2q_bounds {A} (g : A -> bool) l :
  0 <= sumQ (map (fun d => b2q (g d)) l) <= lenQ l.
Proof.
  induction l as [|x l IH].
  - unfold sumQ, lenQ. simpl. split; apply Qle_refl.
  - cbn [map sumQ fold_right]. fold (sumQ (map (fun d => b2q (g d)) l)).
    rewrite lenQ_cons. destruct IH as [H0 H1].
    unfold b2q in *. destruct (g x); lra.
Qed.

Lemma round_half_even_bounds (y : Q) (N : Z) :
  0 <= y -> y <= inject_Z N -> (0 <= round_half_even y <= N)%Z.
Proof.
  intros H0 HN. unfold round_half_even. cbv zeta.
  pose proof (Qfloor_le y) as Hf. pose proof (Qlt_floor y) as Hf1.
  rewrite inject_Z_plus in Hf1. change (inject_Z 1) with 1 in Hf1.
  set (f := Qfloor y) in *.
  assert (Hf0 : (0 <= f)%Z).
  { destruct (Z_lt_le_dec f 0) as [Hl|Hl]; [exfalso|exact Hl].
    assert (Hm : (f <= -1)%Z) by lia. rewrite Zle_Qle in Hm.
    change (inject_Z (-1)) with (-1) in Hm. lra. }
  assert (HfN : (f <= N)%Z) by (rewrite Zle_Qle; lra).
  assert (Hup : 1 # 2 <= y - inject_Z f -> (f < N)%Z).
  { intro Hr. destruct (Z_lt_le_dec f N) as [Hl|Hl]; [exact Hl|exfalso].
    rewrite Zle_Qle in Hl. lra. }
  destruct (Qltb (y - inject_Z f) (1 # 2)) eqn:E1; [lia|].
  apply Qltb_false in E1. specialize (Hup E1).
  destruct (Qltb (1 # 2) (y - inject_Z f)); [lia|].
  destruct (Z.even f); lia.
Qed.

(** The late-delivery percentage shown by the dashboard is always between
    0 and 100, also after rounding to two decimals. *)
Theorem late_pct_bounds (filtered : list derived) :
  0 <= late_pct (kpis filtered) <= 100.
Proof.
  unfold kpis. cbn [late_pct].
  destruct (Nat.ltb 0 (length filtered)) eqn:E; [|lra].
  apply Nat.ltb_lt in E.
  assert (Hne : filtered <> []) by (destruct filtered; simpl in E; [lia|discriminate]).
  set (m := meanQ (map (fun d => b2q (Late d)) filtered)).
  assert (Hm : 0 <= m <= 1).
  { pose proof (lenQ_pos _ Hne) as Hl.
    destruct (sum_b2q_bounds Late filtered) as [H0 H1].
    assert (Hlm : lenQ (map (fun d => b2q (Late d)) filtered) = lenQ filtered)
      by (unfold lenQ; rewrite length_map; reflexivity).
    unfold m, meanQ. rewrite Hlm. split.
    - apply Qle_shift_div_l; [exact Hl|]. lra.
    - apply Qle_shift_div_r; [exact Hl|]. lra. }
  unfold round2.
  destruct (round_half_even_bounds (m * 100 * 100) 10000) as [Z0 Z1].
  { lra. }
  { change (inject_Z 10000) with 10000. lra. }
  rewrite Zle_Qle in Z0, Z1. change (inject_Z 0) with 0 in Z0.
  change (inject_Z 10000) with 10000 in Z1.
  split.
  - apply Qle_shift_div_l; [reflexivity|]. lra.
  - apply Qle_shift_div_r; [reflexivity|]. lra.
Qed.
